(** * custx-fastapi: the authentication service (app/services/auth.py)

    A shallow embedding of the role guards and of [AuthService]: token
    validation and creation, password checks, lookup by id, registration and
    sign-in.  Python exceptions are values of [exn] carried by [result];
    the database session is the list of rows of the user table, threaded
    through the calls that change it; the clock ([datetime.utcnow]) and the
    salt drawn by the password hasher are explicit arguments. *)

From Stdlib Require Import ZArith String List Bool Lia Ascii DecimalString.
Import ListNotations.
Local Open Scope string_scope.
Local Open Scope Z_scope.

(** ** Exceptions and results *)

(** The exception classes that occur in the module and in the library calls
    it makes.  [JWTClaimsError] and [ExpiredSignatureError] are the two
    subclasses of [JWTError] in python-jose. *)
Inductive exn : Type :=
| HTTPException (status_code : Z) (detail : string)
| JWTError (msg : string)
| JWTClaimsError (msg : string)
| ExpiredSignatureError (msg : string)
| ValidationError (msg : string)
| ValueError (msg : string)
| AttributeError (msg : string).

(** A call either returns a value or raises. *)
Inductive result (A : Type) : Type :=
| Return (a : A)
| Raise (e : exn).

Arguments Return {A} a.
Arguments Raise {A} e.

Definition bind {A B : Type} (c : result A) (k : A -> result B) : result B :=
  match c with
  | Return a => k a
  | Raise e => Raise e
  end.

Notation "x <- c ;; k" := (bind c (fun x => k))
  (at level 61, c at next level, right associativity).

(** [try: c  except cls: handler]: an exception of class [cls] (or of a
    subclass) is handled, any other one propagates. *)
Definition try_except {A : Type} (c : result A) (cls : exn -> bool)
  (handler : result A) : result A :=
  match c with
  | Return a => Return a
  | Raise e => if cls e then handler else Raise e
  end.

(** [isinstance(e, JWTError)] *)
Definition isinstance_JWTError (e : exn) : bool :=
  match e with
  | JWTError _ | JWTClaimsError _ | ExpiredSignatureError _ => true
  | _ => false
  end.

(** [isinstance(e, ValidationError)] *)
Definition isinstance_ValidationError (e : exn) : bool :=
  match e with
  | ValidationError _ => true
  | _ => false
  end.

(** The refusal of a token that cannot be validated. *)
Definition invalid_credentials : exn :=
  HTTPException 406 "Could not validate credentials.".

(** Whether a call returned. *)
Definition returns {A : Type} (c : result A) : bool :=
  match c with
  | Return _ => true
  | Raise _ => false
  end.

(** ** JSON values: token claims and the dictionaries of pydantic models *)

#[local] Set Warnings "-register-all".

Inductive json : Type :=
| JNull
| JBool (b : bool)
| JNum (n : Z)
| JStr (s : string)
| JList (items : list json)
| JDict (fields : list (string * json)).

(** [d.get(key)] on the items of a dictionary. *)
Fixpoint dict_get (key : string) (d : list (string * json)) : option json :=
  match d with
  | [] => None
  | (k, v) :: rest => if (k =? key)%string then Some v else dict_get key rest
  end.

(** [str(n)] for an integer. *)
Definition str (n : Z) : string := NilZero.string_of_int (Z.to_int n).

(** A compact rendering of a JSON value, used by the reference MAC below. *)
Fixpoint json_dumps (j : json) : string :=
  match j with
  | JNull => "null"
  | JBool true => "true"
  | JBool false => "false"
  | JNum n => str n
  | JStr s => "'" ++ s ++ "'"
  | JList items =>
      "[" ++ (fix dumps_items (l : list json) : string :=
                match l with
                | [] => ""
                | x :: r => json_dumps x ++ "," ++ dumps_items r
                end) items ++ "]"
  | JDict fields =>
      "{" ++ (fix dumps_fields (l : list (string * json)) : string :=
                match l with
                | [] => ""
                | (k, v) :: r => k ++ ":" ++ json_dumps v ++ "," ++ dumps_fields r
                end) fields ++ "}"
  end.

(** ** The models and tables the service imports *)

(** Modelled from the spec: app/models/roles.py is not among the sources; the
    data model lists the role names user, instructor and administrator, and
    the service only reads the [name] of a member. *)
Module RoleName.
Inductive t : Type := user | instructor | administrator.

Definition name (r : t) : string :=
  match r with
  | user => "user"
  | instructor => "instructor"
  | administrator => "administrator"
  end.
End RoleName.

(** Modelled from the spec: app/tables.py is not among the sources; a
    StoredUser has an identifier, a username, an email, a password hash and
    a role name. *)
Module tables.
Record User : Type := mkUser {
  id : Z;
  email : string;
  username : string;
  password_hash : string;
  role_name : string
}.
End tables.

(** Modelled from the spec: app/models/auth.py is not among the sources; the
    registration input has an email, a username and a password. *)
Module UserCreate.
Record t : Type := make {
  email : string;
  username : string;
  password : string
}.
End UserCreate.

(** Modelled from the spec: app/models/auth.py is not among the sources; the
    User carried in the claims has an identifier, a username, an email and a
    role name. *)
Record User : Type := mkUser {
  id : Z;
  email : string;
  username : string;
  role_name : string
}.

(** [User.from_orm(row)]: the fields of the model read off the row. *)
Definition User_from_orm (row : tables.User) : User :=
  {| id := tables.id row;
     email := tables.email row;
     username := tables.username row;
     role_name := tables.role_name row |}.

(** [user.dict()] *)
Definition User_dict (u : User) : json :=
  JDict [("id", JNum (id u));
         ("email", JStr (email u));
         ("username", JStr (username u));
         ("role_name", JStr (role_name u))].

(** [User.parse_obj(obj)]: the object must be a dictionary that gives every
    field a value of the field's type; anything else does not have the shape
    of a User and raises [ValidationError]. *)
Definition User_parse_obj (obj : json) : result User :=
  match obj with
  | JDict d =>
      match dict_get "id" d, dict_get "email" d,
            dict_get "username" d, dict_get "role_name" d with
      | Some (JNum i), Some (JStr e), Some (JStr n), Some (JStr r) =>
          Return {| id := i; email := e; username := n; role_name := r |}
      | _, _, _, _ => Raise (ValidationError "validation error for User")
      end
  | _ => Raise (ValidationError "User expected dict")
  end.

(** Modelled from the spec: app/settings.py is not among the sources; the
    configuration gives the signing secret, the algorithm name and the token
    lifetime in seconds. *)
Record Settings : Type := mkSettings {
  jwt_secret : string;
  jwt_algorithm : string;
  jwt_expiration : Z
}.

(** ** Bearer tokens *)

(** A token string, read as python-jose reads it: either the compact
    serialisation of a signed object (the algorithm named in its header, its
    payload, its signature), or a string that is no such serialisation. *)
Inductive token_str : Type :=
| NotJWS (raw : string)
| JWS (alg : string) (payload : json) (signature : string).

(** The response model [Token]. *)
Record Token : Type := mkToken { access_token : token_str }.


(** ** The database session *)

(** The rows of the user table, in storage order. *)
Definition Session : Type := list tables.User.

(** [query.first()] *)
Definition first (rows : list tables.User) : option tables.User :=
  match rows with
  | [] => None
  | u :: _ => Some u
  end.

(** The key the table gives the next inserted row. *)
Definition next_id (session : Session) : Z :=
  1 + fold_right (fun u m => Z.max (tables.id u) m) 0 session.

(** [session.add(user); session.commit()] for a new row without a key yet:
    the row is stored after the others, under the next key. *)
Definition add_commit (session : Session)
  (email username password_hash role_name : string) : Session * tables.User :=
  let user := tables.mkUser (next_id session) email username password_hash role_name in
  ((session ++ [user])%list, user).

(** ** Reference primitives

    Stand-ins for the keyed hash behind the token signature and for the
    bcrypt digest, used to run the service on concrete inputs. *)

Definition ref_mac (alg key : string) (claims : json) : string :=
  alg ++ "/" ++ key ++ "/" ++ json_dumps claims.

Definition ref_digest (ident : string) (rounds : Z) (salt secret : string) : string :=
  substring 0 31 (secret ++ "." ++ salt ++ "...............................").

Definition ref_settings : Settings :=
  {| jwt_secret := "s3cret"; jwt_algorithm := "HS256"; jwt_expiration := 3600 |}.

(** ** Sample data *)

Definition alice_row : tables.User :=
  tables.mkUser 1 "a@x.com" "alice" "$2b$12$saltsaltsaltsaltsaltsapw123.saltsaltsaltsaltsaltsa..." "user".

Definition alice : User := mkUser 1 "a@x.com" "alice" "user".

Definition ivan : User := mkUser 2 "i@x.com" "ivan" "instructor".

Definition carol_row : tables.User :=
  tables.mkUser 3 "c@x.com" "carol" "$2b$12$x" "administrator".

(** The claims of a token for alice, issued at 1000 for 3600 seconds, with a
    subject of choice. *)
Definition alice_claims (sub : string) : json :=
  JDict [("iat", JNum 1000); ("nbf", JNum 1000); ("exp", JNum 4600);
         ("sub", JStr sub); ("user", User_dict alice)].

Definition good_salt : string := "saltsaltsaltsaltsaltsa".


(** ** The role guards *)

(** A route depends on one of the guards; each receives the user resolved
    from the bearer token and hands it on, or refuses the request. *)

Definition is_administrator (current_user : User) : result User :=
  if negb (role_name current_user =? RoleName.name RoleName.administrator)%string
  then Raise (HTTPException 400 "User is not administrator.")
  else Return current_user.

Definition is_not_administrator (current_user : User) : result User :=
  if (role_name current_user =? RoleName.name RoleName.administrator)%string
  then Raise (HTTPException 400 "User is administrator.")
  else Return current_user.

Definition is_instructor_or_higher (current_user : User) : result User :=
  if negb (existsb (String.eqb (role_name current_user))
             [RoleName.name RoleName.instructor; RoleName.name RoleName.administrator])
  then Raise (HTTPException 400 "User is not instructor or high.")
  else Return current_user.

Definition is_instructor (current_user : User) : result User :=
  if negb (role_name current_user =? RoleName.name RoleName.instructor)%string
  then Raise (HTTPException 400 "User is not instructor.")
  else Return current_user.

(** A guard implements a policy on role names when it hands on every user
    the policy allows and refuses every other one with status 400. *)
Definition guard_allows (guard : User -> result User) (allowed : string -> Prop) : Prop :=
  forall u : User,
    (allowed (role_name u) -> guard u = Return u) /\
    (~ allowed (role_name u) -> exists detail, guard u = Raise (HTTPException 400 detail)).

(** The four decisions taken on one user: admin-only, non-admin-only,
    instructor-or-admin, instructor-only. *)
Definition guard_decisions (u : User) : bool * bool * bool * bool :=
  (returns (is_administrator u), returns (is_not_administrator u),
   returns (is_instructor_or_higher u), returns (is_instructor u)).

(** The guards of the module. *)
Definition guards : list (User -> result User) :=
  [is_administrator; is_not_administrator; is_instructor_or_higher; is_instructor].

(** ** passlib's bcrypt handler

    The handler reads a hash string as an identifier, a two-digit cost, a
    22-character salt and a 31-character checksum, all but the separators
    drawn from its base-64 alphabet, and raises [ValueError] on a string of
    any other form. *)

Definition bcrypt_idents : list string := ["$2b$"; "$2a$"; "$2y$"; "$2x$"; "$2$"].

Definition drop (n : nat) (s : string) : string :=
  substring n (String.length s - n) s.

Fixpoint split_ident (idents : list string) (hash : string) : option (string * string) :=
  match idents with
  | [] => None
  | i :: rest =>
      if prefix i hash then Some (i, drop (String.length i) hash)
      else split_ident rest hash
  end.

Definition is_digit (c : ascii) : bool :=
  let n := Z.of_nat (nat_of_ascii c) in (48 <=? n) && (n <=? 57).

Definition is_hash64 (c : ascii) : bool :=
  let n := Z.of_nat (nat_of_ascii c) in
  ((46 <=? n) && (n <=? 57)) || ((65 <=? n) && (n <=? 90)) || ((97 <=? n) && (n <=? 122)).

Fixpoint all_chars (p : ascii -> bool) (s : string) : bool :=
  match s with
  | EmptyString => true
  | String c r => p c && all_chars p r
  end.

Definition digit_value (c : ascii) : Z := Z.of_nat (nat_of_ascii c) - 48.

(** The parts of a well-formed hash string: identifier, cost, salt, checksum. *)
Definition bcrypt_from_string (hash : string) : option (string * Z * string * string) :=
  match split_ident bcrypt_idents hash with
  | None => None
  | Some (ident, String d1 (String d2 (String "$" data))) =>
      let rounds := 10 * digit_value d1 + digit_value d2 in
      if is_digit d1 && is_digit d2 && (4 <=? rounds) && (rounds <=? 31)
         && (String.length data =? 53)%nat && all_chars is_hash64 data
      then Some (ident, rounds, substring 0 22 data, substring 22 31 data)
      else None
  | Some _ => None
  end.

Section Service.

(** The keyed hash of the configured signature algorithm: algorithm name,
    key, signed claims. *)
Variable mac : string -> string -> json -> string.

(** The bcrypt digest: identifier, cost, salt, password. *)
Variable bcrypt_digest : string -> Z -> string -> string -> string.

(** The global [settings] object. *)
Variable settings : Settings.

(** [bcrypt.verify(secret, hash)] *)
Definition bcrypt_verify (secret hash : string) : result bool :=
  match bcrypt_from_string hash with
  | None => Raise (ValueError "not a valid bcrypt hash")
  | Some (ident, rounds, salt, checksum) =>
      Return (bcrypt_digest ident rounds salt secret =? checksum)%string
  end.

(** [bcrypt.hash(secret)], with the salt the handler draws. *)
Definition bcrypt_hash (salt secret : string) : string :=
  "$2b$12$" ++ salt ++ bcrypt_digest "$2b$" 12 salt secret.

(** ** python-jose's [jwt] *)

(** [jwt.encode(claims, key, algorithm)] *)
Definition jwt_encode (claims : json) (key algorithm : string) : token_str :=
  JWS algorithm claims (mac algorithm key claims).

(** A time claim, when present, must be a number. *)
Definition time_claim (name : string) (claims : list (string * json)) : result (option Z) :=
  match dict_get name claims with
  | None => Return None
  | Some (JNum n) => Return (Some n)
  | Some _ => Raise (JWTClaimsError (name ++ " claim must be an integer."))
  end.

(** A claim that, when present, must be a string. *)
Definition string_claim (name : string) (claims : list (string * json)) : result unit :=
  match dict_get name claims with
  | None | Some (JStr _) => Return tt
  | Some _ => Raise (JWTClaimsError (name ++ " must be a string."))
  end.

(** The validation of the registered claims under the default options, with
    no audience, issuer, subject or access token to compare against. *)
Definition validate_claims (now : Z) (claims : list (string * json)) : result unit :=
  _ <- time_claim "iat" claims ;;
  nbf <- time_claim "nbf" claims ;;
  _ <- match nbf with
       | Some t => if now <? t
                   then Raise (JWTClaimsError "The token is not yet valid (nbf)")
                   else Return tt
       | None => Return tt
       end ;;
  exp <- time_claim "exp" claims ;;
  _ <- match exp with
       | Some t => if t <? now
                   then Raise (ExpiredSignatureError "Signature has expired.")
                   else Return tt
       | None => Return tt
       end ;;
  _ <- match dict_get "aud" claims with
       | None => Return tt
       | Some _ => Raise (JWTClaimsError "Invalid audience")
       end ;;
  _ <- string_claim "sub" claims ;;
  _ <- string_claim "jti" claims ;;
  match dict_get "at_hash" claims with
  | None => Return tt
  | Some _ => Raise (JWTClaimsError "No access_token provided to compare against at_hash claim.")
  end.

(** [jwt.decode(token, key, algorithms=algorithms)] at time [now]. *)
Definition jwt_decode (now : Z) (token : token_str) (key : string)
  (algorithms : list string) : result (list (string * json)) :=
  match token with
  | NotJWS _ => Raise (JWTError "Not enough segments")
  | JWS alg payload signature =>
      if negb (existsb (String.eqb alg) algorithms)
      then Raise (JWTError "The specified alg value is not allowed")
      else if negb (signature =? mac alg key payload)%string
      then Raise (JWTError "Signature verification failed.")
      else
        match payload with
        | JDict claims => _ <- validate_claims now claims ;; Return claims
        | _ => Raise (JWTError "Invalid payload string: must be a json object")
        end
  end.

(** ** AuthService *)

Definition verify_password (plain_password hashed_password : string) : result bool :=
  bcrypt_verify plain_password hashed_password.

Definition hash_password (salt password : string) : string :=
  bcrypt_hash salt password.

Definition validate_token (now : Z) (token : token_str) : result User :=
  payload <- try_except
               (jwt_decode now token (jwt_secret settings) [jwt_algorithm settings])
               isinstance_JWTError
               (Raise (HTTPException 406 "Could not validate credentials.")) ;;
  let user_data := match dict_get "user" payload with
                   | Some v => v
                   | None => JNull
                   end in
  try_except (User_parse_obj user_data)
    isinstance_ValidationError
    (Raise (HTTPException 406 "Could not validate credentials.")).

Definition create_token (now : Z) (user : tables.User) : Token :=
  let user_data := User_from_orm user in
  let payload := JDict [("iat", JNum now);
                        ("nbf", JNum now);
                        ("exp", JNum (now + jwt_expiration settings));
                        ("sub", JStr (str (id user_data)));
                        ("user", User_dict user_data)] in
  let token := jwt_encode payload (jwt_secret settings) (jwt_algorithm settings) in
  {| access_token := token |}.

Definition _get (session : Session) (user_id : Z) : result tables.User :=
  let user := first (filter (fun u => tables.id u =? user_id) session) in
  match user with
  | None => Raise (HTTPException 406 "User with this id does not exist.")
  | Some u => Return u
  end.

(** A Python function that falls off its end returns [None]. *)
Definition _check_role_by_user_id (session : Session) (user_id : Z)
  (role_name : string) : result (option tables.User) :=
  user <- _get session user_id ;;
  if (tables.role_name user =? role_name)%string
  then Return (Some user)
  else Return None.

Definition register_new_user (session : Session) (salt : string) (now : Z)
  (user_data : UserCreate.t) : Session * Token :=
  let (session', user) :=
    add_commit session
      (UserCreate.email user_data)
      (UserCreate.username user_data)
      (hash_password salt (UserCreate.password user_data))
      (RoleName.name RoleName.user) in
  (session', create_token now user).

(** The truth value of a class object, which is what [not User] tests. *)
Definition bool_of_class (class_name : string) : bool := true.

Definition authenticate_user (session : Session) (now : Z)
  (username password : string) : result Token :=
  let user := first (filter (fun u => (tables.username u =? username)%string) session) in
  if negb (bool_of_class "User")
  then Raise (HTTPException 406 "Incorrect username or password.")
  else
    match user with
    | None => Raise (AttributeError "'NoneType' object has no attribute 'password_hash'")
    | Some u =>
        verified <- verify_password password (tables.password_hash u) ;;
        if negb verified
        then Raise (HTTPException 406 "Incorrect username or password.")
        else Return (create_token now u)
    end.

Definition get (session : Session) (user_id : Z) : result tables.User :=
  _get session user_id.

(** The salt drawn and the digest of a password have the form of the salt and
    of the checksum of a hash string. *)
Definition well_formed_parts (salt password : string) : Prop :=
  String.length salt = 22%nat /\ all_chars is_hash64 salt = true /\
  String.length (bcrypt_digest "$2b$" 12 salt password) = 31%nat /\
  all_chars is_hash64 (bcrypt_digest "$2b$" 12 salt password) = true.

(** The string a member of [RoleName] is compared as with the [role_name]
    column of the table (app/tables.py and app/models/roles.py are not among
    the sources). *)
Variable role_column : RoleName.t -> string.

(** A member of an enumeration is truthy, so [if role_name:] tests whether a
    role was given. *)
Definition get_list (session : Session) (role_name : option RoleName.t) : list tables.User :=
  let query := session in
  let query :=
    match role_name with
    | Some r => filter (fun u => (tables.role_name u =? role_column r)%string) query
    | None => query
    end in
  query.

(** The dependency of every guarded route: the user of the bearer token. *)
Definition get_current_user (now : Z) (token : token_str) : result User :=
  validate_token now token.

(** A guard as a route runs it: the framework first resolves the parameter
    [current_user = Depends(get_current_user)] from the token of the
    request, then calls the guard on it; an exception of the dependency ends
    the request before the guard is called. *)
Definition depends_get_current_user (guard : User -> result User)
  (now : Z) (token : token_str) : result User :=
  current_user <- get_current_user now token ;;
  guard current_user.

End Service.

(** * Properties *)

(** An equation [Raise _ = Raise e] (or an impossible one) taken from the
    goal, the exception put in place of [e]. *)
Ltac raised :=
  let H := fresh "Hraised" in
  intros H; inversion H; subst; clear H; try reflexivity.

Section ServiceProperties.

Variable mac : string -> string -> json -> string.
Variable bcrypt_digest : string -> Z -> string -> string -> string.
Variable settings : Settings.

(** ** Token decoding *)

Lemma time_claim_raises_JWTError (name : string) (claims : list (string * json)) (e : exn) :
  time_claim name claims = Raise e -> isinstance_JWTError e = true.
Proof.
  unfold time_claim.
  destruct (dict_get name claims) as [[ | | | | | ] | ]; raised.
Qed.

Lemma string_claim_raises_JWTError (name : string) (claims : list (string * json)) (e : exn) :
  string_claim name claims = Raise e -> isinstance_JWTError e = true.
Proof.
  unfold string_claim.
  destruct (dict_get name claims) as [[ | | | | | ] | ]; raised.
Qed.

Lemma validate_claims_raises_JWTError (now : Z) (claims : list (string * json)) (e : exn) :
  validate_claims now claims = Raise e -> isinstance_JWTError e = true.
Proof.
  unfold validate_claims.
  destruct (time_claim "iat" claims) as [? | e1] eqn:Hiat; cbn [bind];
    [ | raised; eauto using time_claim_raises_JWTError ].
  destruct (time_claim "nbf" claims) as [nbf | e1] eqn:Hnbf; cbn [bind];
    [ | raised; eauto using time_claim_raises_JWTError ].
  destruct nbf as [t | ]; [ destruct (now <? t) | ]; cbn [bind];
    try (raised; fail).
  all: destruct (time_claim "exp" claims) as [ex | e1] eqn:Hexp; cbn [bind];
    [ | raised; eauto using time_claim_raises_JWTError ].
  all: destruct ex as [t' | ]; [ destruct (t' <? now) | ]; cbn [bind];
    try (raised; fail).
  all: destruct (dict_get "aud" claims); cbn [bind];
    try (raised; fail).
  all: destruct (string_claim "sub" claims) as [? | e1] eqn:Hsub; cbn [bind];
    [ | raised; eauto using string_claim_raises_JWTError ].
  all: destruct (string_claim "jti" claims) as [? | e1] eqn:Hjti; cbn [bind];
    [ | raised; eauto using string_claim_raises_JWTError ].
  all: destruct (dict_get "at_hash" claims); raised.
Qed.

(** Whatever [jwt.decode] raises is a [JWTError]. *)
Lemma jwt_decode_raises_JWTError (now : Z) (token : token_str) (key : string)
  (algorithms : list string) (e : exn) :
  jwt_decode mac now token key algorithms = Raise e -> isinstance_JWTError e = true.
Proof.
  unfold jwt_decode.
  destruct token as [raw | alg payload signature].
  - raised.
  - destruct (negb (existsb (String.eqb alg) algorithms)); [ raised | ].
    destruct (negb (signature =? mac alg key payload)%string); [ raised | ].
    destruct payload; try (raised; fail).
    destruct (validate_claims now fields) as [[] | e1] eqn:Hv; cbn [bind]; raised.
    eapply validate_claims_raises_JWTError; eassumption.
Qed.

(** A token that [jwt.decode] refuses is refused with status 406. *)
Lemma validate_token_decode_raises (now : Z) (token : token_str) (e : exn) :
  jwt_decode mac now token (jwt_secret settings) [jwt_algorithm settings] = Raise e ->
  validate_token mac settings now token = Raise invalid_credentials.
Proof.
  intros H. unfold validate_token. rewrite H.
  cbn [try_except]. rewrite (jwt_decode_raises_JWTError _ _ _ _ _ H). reflexivity.
Qed.


(** On a token that [jwt.decode] accepts, the outcome is read off the [user]
    claim alone. *)
Lemma validate_token_decode_returns (now : Z) (token : token_str)
  (payload : list (string * json)) :
  jwt_decode mac now token (jwt_secret settings) [jwt_algorithm settings] = Return payload ->
  validate_token mac settings now token =
  try_except
    (User_parse_obj match dict_get "user" payload with Some v => v | None => JNull end)
    isinstance_ValidationError (Raise invalid_credentials).
Proof.
  intros H. unfold validate_token. rewrite H. reflexivity.
Qed.


(** ** Round trip *)

(** The claims [create_token] writes pass the validation of the registered
    claims from the instant of issue to the instant of expiry. *)
Lemma validate_claims_issued (now now' ttl : Z) (sub : string) (user : json) :
  now <= now' <= now + ttl ->
  validate_claims now'
    [("iat", JNum now); ("nbf", JNum now); ("exp", JNum (now + ttl));
     ("sub", JStr sub); ("user", user)] = Return tt.
Proof.
  intros [Hlo Hhi]. unfold validate_claims, time_claim, string_claim.
  cbn [dict_get String.eqb Ascii.eqb Bool.eqb bind].
  replace (now' <? now) with false by (symmetry; apply Z.ltb_ge; lia).
  replace (now + ttl <? now') with false by (symmetry; apply Z.ltb_ge; lia).
  reflexivity.
Qed.

Lemma User_parse_obj_dict (u : User) : User_parse_obj (User_dict u) = Return u.
Proof. destruct u; reflexivity. Qed.

(** Decoding what [create_token] encoded gives back the user of the row. *)
Lemma validate_create_token (now now' : Z) (user : tables.User) :
  now <= now' <= now + jwt_expiration settings ->
  validate_token mac settings now' (access_token (create_token mac settings now user))
  = Return (User_from_orm user).
Proof.
  intros Hwithin.
  unfold validate_token, create_token, jwt_encode, jwt_decode.
  cbn [access_token existsb].
  rewrite !String.eqb_refl. cbn [orb negb].
  rewrite (validate_claims_issued _ _ _ _ _ Hwithin).
  cbn [bind try_except dict_get String.eqb Ascii.eqb Bool.eqb].
  rewrite User_parse_obj_dict. reflexivity.
Qed.

(** C2: for every stored user and every lifetime [ttl > 0], the token that
    [create_token] issues at time [now] decodes, under the same secret and
    algorithm and at any time from [now] to [now + ttl], to the User of that
    row; every User is the User of some row, so the round trip returns every
    User unchanged. *)
Theorem create_then_validate_roundtrip (now now' : Z) (u : User) (pw : string) :
  0 < jwt_expiration settings ->
  now <= now' <= now + jwt_expiration settings ->
  let row := tables.mkUser (id u) (email u) (username u) pw (role_name u) in
  User_from_orm row = u /\
  validate_token mac settings now' (access_token (create_token mac settings now row))
  = Return u.
Proof.
  intros _ Hwithin row. split.
  - destruct u; reflexivity.
  - rewrite (validate_create_token _ _ _ Hwithin). destruct u; reflexivity.
Qed.

(** ** Expiry *)

Lemma validate_claims_expired (now exp : Z) (claims : list (string * json)) :
  dict_get "exp" claims = Some (JNum exp) -> exp < now ->
  exists e, validate_claims now claims = Raise e.
Proof.
  intros Hexp Hlt. unfold validate_claims.
  destruct (time_claim "iat" claims) as [? | e1]; cbn [bind]; [ | eauto ].
  destruct (time_claim "nbf" claims) as [nbf | e1]; cbn [bind]; [ | eauto ].
  assert (Hx : time_claim "exp" claims = Return (Some exp))
    by (unfold time_claim; rewrite Hexp; reflexivity).
  assert (Hb : (exp <? now) = true) by (apply Z.ltb_lt; exact Hlt).
  destruct nbf as [t | ]; [ destruct (now <? t) | ]; cbn [bind]; eauto;
    rewrite Hx; cbn [bind]; rewrite Hb; cbn [bind]; eauto.
Qed.


(** ** Signatures *)



(** ** The subject claim *)

(** C9: two tokens that both pass [jwt.decode] and carry the same [user]
    claim give the same outcome, whatever their other claims, [sub]
    included. *)
Theorem validate_token_depends_on_user_claim_only (now : Z) (t1 t2 : token_str)
  (p1 p2 : list (string * json)) :
  jwt_decode mac now t1 (jwt_secret settings) [jwt_algorithm settings] = Return p1 ->
  jwt_decode mac now t2 (jwt_secret settings) [jwt_algorithm settings] = Return p2 ->
  dict_get "user" p1 = dict_get "user" p2 ->
  validate_token mac settings now t1 = validate_token mac settings now t2.
Proof.
  intros H1 H2 Huser.
  rewrite (validate_token_decode_returns _ _ _ H1).
  rewrite (validate_token_decode_returns _ _ _ H2).
  rewrite Huser. reflexivity.
Qed.

(** ** Role guards *)

(** C3, as the code has it: each guard succeeds exactly when the role of the
    user is in the set its policy allows, returns the user it was given, and
    refuses with status 400 otherwise; an administrator passes admin-only
    and instructor-or-admin only, a plain user passes non-admin-only only,
    and an instructor passes instructor-only, instructor-or-admin and, not
    being an administrator, non-admin-only as well. *)
Theorem role_guards_policies :
  guard_allows is_administrator (fun r => r = "administrator") /\
  guard_allows is_not_administrator (fun r => r <> "administrator") /\
  guard_allows is_instructor_or_higher (fun r => r = "instructor" \/ r = "administrator") /\
  guard_allows is_instructor (fun r => r = "instructor") /\
  (forall (role : RoleName.t) (u : User),
     role_name u = RoleName.name role ->
     guard_decisions u =
     match role with
     | RoleName.administrator => (true, false, true, false)
     | RoleName.instructor => (false, true, true, true)
     | RoleName.user => (false, true, false, false)
     end).
Proof.
  repeat split.
  - intros H. unfold is_administrator. cbn [RoleName.name]. rewrite H. reflexivity.
  - intros H. unfold is_administrator. cbn [RoleName.name].
    apply String.eqb_neq in H. rewrite H. cbn [negb]. eauto.
  - intros H. unfold is_not_administrator. cbn [RoleName.name].
    apply String.eqb_neq in H. rewrite H. reflexivity.
  - intros H. unfold is_not_administrator. cbn [RoleName.name].
    destruct (String.eqb_spec (role_name u) "administrator") as [Heq | Hne]; [ eauto | ].
    exfalso. apply H. exact Hne.
  - intros H. unfold is_instructor_or_higher. cbn [RoleName.name existsb].
    destruct H as [H | H]; rewrite H; reflexivity.
  - intros H. unfold is_instructor_or_higher. cbn [RoleName.name existsb].
    destruct (String.eqb_spec (role_name u) "instructor") as [Heq | Hne];
      [ exfalso; apply H; left; exact Heq | ].
    destruct (String.eqb_spec (role_name u) "administrator") as [Heq | Hne'];
      [ exfalso; apply H; right; exact Heq | ].
    cbn [orb negb]. eauto.
  - intros H. unfold is_instructor. cbn [RoleName.name]. rewrite H. reflexivity.
  - intros H. unfold is_instructor. cbn [RoleName.name].
    apply String.eqb_neq in H. rewrite H. cbn [negb]. eauto.
  - intros role u H. unfold guard_decisions, is_administrator, is_not_administrator,
      is_instructor_or_higher, is_instructor.
    rewrite H. destruct role; reflexivity.
Qed.

(** ** Lookup by id *)

Lemma _get_absent (session : Session) (user_id : Z) :
  (forall u, In u session -> tables.id u <> user_id) ->
  _get session user_id = Raise (HTTPException 406 "User with this id does not exist.").
Proof.
  unfold _get. induction session as [ | row rows IH]; intros Habs; [ reflexivity | ].
  cbn [filter].
  destruct (Z.eqb_spec (tables.id row) user_id) as [Heq | Hne].
  - exfalso. apply (Habs row); [ left; reflexivity | exact Heq ].
  - apply IH. intros u Hin. apply Habs. right. exact Hin.
Qed.

Lemma _get_returns (session : Session) (user_id : Z) (u : tables.User) :
  _get session user_id = Return u -> In u session /\ tables.id u = user_id.
Proof.
  unfold _get. induction session as [ | row rows IH]; [ discriminate | ].
  cbn [filter].
  destruct (Z.eqb_spec (tables.id row) user_id) as [Heq | Hne].
  - cbn [first]. intros H. inversion H; subst. split; [ left | ]; reflexivity.
  - intros H. destruct (IH H) as [Hin Hid]. split; [ right; exact Hin | exact Hid ].
Qed.

Lemma _get_present (session : Session) (user_id : Z) :
  (exists u, In u session /\ tables.id u = user_id) ->
  exists u, _get session user_id = Return u.
Proof.
  unfold _get. induction session as [ | row rows IH]; intros [u [Hin Hid]];
    [ destruct Hin | ].
  cbn [filter].
  destruct (Z.eqb_spec (tables.id row) user_id) as [Heq | Hne].
  - cbn [first]. eauto.
  - destruct Hin as [Hrow | Hin]; [ subst; contradiction | ].
    apply IH. eauto.
Qed.

Lemma _get_raises (session : Session) (user_id : Z) (e : exn) :
  _get session user_id = Raise e -> forall u, In u session -> tables.id u <> user_id.
Proof.
  intros Hraise u Hin Hid.
  destruct (_get_present session user_id) as [v Hv]; [ eauto | ].
  rewrite Hv in Hraise. discriminate Hraise.
Qed.

(** C4: [get] refuses a user id that no stored user has, with the 406
    refusal that names the missing id, and otherwise returns a stored user
    with that id. *)
Theorem get_found_or_refused (session : Session) (user_id : Z) :
  ((forall u, In u session -> tables.id u <> user_id) ->
   get session user_id = Raise (HTTPException 406 "User with this id does not exist.")) /\
  ((exists u, In u session /\ tables.id u = user_id) ->
   exists u, get session user_id = Return u /\ In u session /\ tables.id u = user_id).
Proof.
  unfold get. split.
  - apply _get_absent.
  - intros Hex. destruct (_get_present _ _ Hex) as [u Hu].
    exists u. split; [ exact Hu | exact (_get_returns _ _ _ Hu) ].
Qed.

(** C10: [_check_role_by_user_id] returns the stored user when it exists and
    has the given role, returns [None] and raises nothing when it exists
    with another role, and raises only when no stored user has the id, in
    which case it does raise. *)
Theorem check_role_by_user_id_outcomes (session : Session) (user_id : Z) (role : string) :
  (forall u, _get session user_id = Return u -> tables.role_name u = role ->
     _check_role_by_user_id session user_id role = Return (Some u)) /\
  (forall u, _get session user_id = Return u -> tables.role_name u <> role ->
     _check_role_by_user_id session user_id role = Return None) /\
  (forall e, _check_role_by_user_id session user_id role = Raise e ->
     forall u, In u session -> tables.id u <> user_id) /\
  ((forall u, In u session -> tables.id u <> user_id) ->
     _check_role_by_user_id session user_id role
     = Raise (HTTPException 406 "User with this id does not exist.")).
Proof.
  unfold _check_role_by_user_id. repeat split.
  - intros u Hget Hrole. rewrite Hget. cbn [bind].
    apply String.eqb_eq in Hrole. rewrite Hrole. reflexivity.
  - intros u Hget Hrole. rewrite Hget. cbn [bind].
    apply String.eqb_neq in Hrole. rewrite Hrole. reflexivity.
  - intros e Hraise.
    destruct (_get session user_id) as [v | e'] eqn:Hget.
    + cbn [bind] in Hraise.
      destruct (tables.role_name v =? role)%string; discriminate Hraise.
    + eapply _get_raises; eassumption.
  - intros Habs. rewrite (_get_absent _ _ Habs). reflexivity.
Qed.

(** ** Registration *)


(** ** Passwords *)


(** ** Sign-in *)

(** The test [not User] never fires: a username that no row has reaches the
    attribute access on [None]. *)
Lemma authenticate_user_unknown_username (session : Session) (now : Z)
  (username password : string) :
  (forall u, In u session -> tables.username u <> username) ->
  authenticate_user mac bcrypt_digest settings session now username password
  = Raise (AttributeError "'NoneType' object has no attribute 'password_hash'").
Proof.
  intros Habs. unfold authenticate_user. cbn [bool_of_class negb].
  replace (filter (fun u => (tables.username u =? username)%string) session)
    with (@nil tables.User); [ reflexivity | ].
  symmetry. induction session as [ | row rows IH]; [ reflexivity | ].
  cbn [filter].
  destruct (String.eqb_spec (tables.username row) username) as [Heq | Hne].
  - exfalso. apply (Habs row); [ left; reflexivity | exact Heq ].
  - apply IH. intros u Hin. apply Habs. right. exact Hin.
Qed.

(** For the first row with the username, a password that does not verify
    against its hash is refused with status 406 and one that verifies gets a
    token. *)
Lemma authenticate_user_known_username (rows : Session) (row : tables.User) (now : Z)
  (username password : string) (verified : bool) :
  first (filter (fun u => (tables.username u =? username)%string) rows) = Some row ->
  verify_password bcrypt_digest password (tables.password_hash row) = Return verified ->
  authenticate_user mac bcrypt_digest settings rows now username password
  = if verified then Return (create_token mac settings now row)
    else Raise (HTTPException 406 "Incorrect username or password.").
Proof.
  intros Hrow Hverify. unfold authenticate_user. cbn [bool_of_class negb].
  rewrite Hrow, Hverify. cbn [bind]. destruct verified; reflexivity.
Qed.

End ServiceProperties.

(** * The service on concrete inputs *)

Lemma create_then_validate_roundtrip_witness :
  0 < jwt_expiration ref_settings /\
  1000 <= 2000 <= 1000 + jwt_expiration ref_settings /\
  validate_token ref_mac ref_settings 2000
    (access_token (create_token ref_mac ref_settings 1000 alice_row))
  = Return alice.
Proof.
  assert (H0 : 0 < jwt_expiration ref_settings) by (cbn; lia).
  assert (H1 : 1000 <= 2000 <= 1000 + jwt_expiration ref_settings) by (cbn; lia).
  split; [ exact H0 | split; [ exact H1 | ] ].
  exact (proj2 (create_then_validate_roundtrip ref_mac ref_settings 1000 2000 alice
                  (tables.password_hash alice_row) H0 H1)).
Defined.



Lemma validate_token_depends_on_user_claim_only_witness :
  jwt_decode ref_mac 2000
    (jwt_encode ref_mac (alice_claims "1") "s3cret" "HS256")
    (jwt_secret ref_settings) [jwt_algorithm ref_settings]
  = Return [("iat", JNum 1000); ("nbf", JNum 1000); ("exp", JNum 4600);
            ("sub", JStr "1"); ("user", User_dict alice)] /\
  jwt_decode ref_mac 2000
    (jwt_encode ref_mac (alice_claims "999") "s3cret" "HS256")
    (jwt_secret ref_settings) [jwt_algorithm ref_settings]
  = Return [("iat", JNum 1000); ("nbf", JNum 1000); ("exp", JNum 4600);
            ("sub", JStr "999"); ("user", User_dict alice)] /\
  validate_token ref_mac ref_settings 2000
    (jwt_encode ref_mac (alice_claims "1") "s3cret" "HS256")
  = validate_token ref_mac ref_settings 2000
      (jwt_encode ref_mac (alice_claims "999") "s3cret" "HS256") /\
  validate_token ref_mac ref_settings 2000
    (jwt_encode ref_mac (alice_claims "999") "s3cret" "HS256")
  = Return alice.
Proof.
  assert (H1 : jwt_decode ref_mac 2000
                 (jwt_encode ref_mac (alice_claims "1") "s3cret" "HS256")
                 (jwt_secret ref_settings) [jwt_algorithm ref_settings]
               = Return [("iat", JNum 1000); ("nbf", JNum 1000); ("exp", JNum 4600);
                         ("sub", JStr "1"); ("user", User_dict alice)])
    by (vm_compute; reflexivity).
  assert (H2 : jwt_decode ref_mac 2000
                 (jwt_encode ref_mac (alice_claims "999") "s3cret" "HS256")
                 (jwt_secret ref_settings) [jwt_algorithm ref_settings]
               = Return [("iat", JNum 1000); ("nbf", JNum 1000); ("exp", JNum 4600);
                         ("sub", JStr "999"); ("user", User_dict alice)])
    by (vm_compute; reflexivity).
  split; [ exact H1 | split; [ exact H2 | split ] ].
  - exact (validate_token_depends_on_user_claim_only ref_mac ref_settings 2000 _ _ _ _
             H1 H2 eq_refl).
  - vm_compute. reflexivity.
Defined.

Lemma role_guards_policies_witness :
  role_name ivan = RoleName.name RoleName.instructor /\
  guard_decisions ivan = (false, true, true, true).
Proof.
  assert (H0 : role_name ivan = RoleName.name RoleName.instructor) by reflexivity.
  split; [ exact H0 | ].
  exact (proj2 (proj2 (proj2 (proj2 role_guards_policies))) RoleName.instructor ivan H0).
Defined.

(** Against C3 as stated: an instructor is not an administrator, so the
    non-admin-only guard hands the instructor on. *)
Lemma instructor_passes_non_admin_only :
  role_name ivan = RoleName.name RoleName.instructor /\
  is_not_administrator ivan = Return ivan.
Proof. split; reflexivity. Qed.

Lemma get_found_or_refused_witness :
  (exists u, In u [alice_row; carol_row] /\ tables.id u = 3) /\
  (exists u, get [alice_row; carol_row] 3 = Return u /\
             In u [alice_row; carol_row] /\ tables.id u = 3).
Proof.
  assert (H0 : exists u, In u [alice_row; carol_row] /\ tables.id u = 3).
  { exists carol_row. split; [ right; left; reflexivity | reflexivity ]. }
  split; [ exact H0 | ].
  exact (proj2 (get_found_or_refused [alice_row; carol_row] 3) H0).
Defined.

Lemma check_role_by_user_id_outcomes_witness :
  _get [alice_row; carol_row] 3 = Return carol_row /\
  tables.role_name carol_row <> "user" /\
  _check_role_by_user_id [alice_row; carol_row] 3 "user" = Return None.
Proof.
  assert (H0 : _get [alice_row; carol_row] 3 = Return carol_row) by reflexivity.
  assert (H1 : tables.role_name carol_row <> "user")
    by (vm_compute; intros H; discriminate H).
  split; [ exact H0 | split; [ exact H1 | ] ].
  exact (proj1 (proj2 (check_role_by_user_id_outcomes [alice_row; carol_row] 3 "user"))
           carol_row H0 H1).
Defined.


(** C1 on a username that no row has: the request ends in [AttributeError],
    not in the 406 refusal. *)
Theorem authenticate_user_unknown_username_raises_AttributeError :
  authenticate_user ref_mac ref_digest ref_settings [alice_row; carol_row] 1000 "bob" "pw123"
  = Raise (AttributeError "'NoneType' object has no attribute 'password_hash'").
Proof. reflexivity. Qed.

(** The scenario of the specification: alice registers, her token decodes to
    her as a plain user, she signs in with her password and is refused with
    another one. *)
Example register_then_sign_in :
  let input := UserCreate.make "a@x.com" "alice" "pw123" in
  let registered :=
    register_new_user ref_mac ref_digest ref_settings [] "saltsaltsaltsaltsaltsa" 1000 input in
  fst registered = [alice_row] /\
  validate_token ref_mac ref_settings 1000 (access_token (snd registered)) = Return alice /\
  authenticate_user ref_mac ref_digest ref_settings (fst registered) 1500 "alice" "pw123"
  = Return (create_token ref_mac ref_settings 1500 alice_row) /\
  authenticate_user ref_mac ref_digest ref_settings (fst registered) 1500 "alice" "wrong"
  = Raise (HTTPException 406 "Incorrect username or password.").
Proof. vm_compute. repeat split. Qed.


(** * Further properties *)

(** ** Tokens and guards *)

Section TokenProperties.

Variable mac : string -> string -> json -> string.
Variable settings : Settings.

(** A payload whose claims do not validate is refused by [jwt.decode]. *)
Lemma jwt_decode_invalid_claims (now : Z) (alg signature key : string)
  (algorithms : list string) (claims : list (string * json)) (e : exn) :
  validate_claims now claims = Raise e ->
  exists e', jwt_decode mac now (JWS alg (JDict claims) signature) key algorithms = Raise e'.
Proof.
  intros Hv. unfold jwt_decode.
  destruct (negb (existsb (String.eqb alg) algorithms)); [ eauto | ].
  destruct (negb (signature =? mac alg key (JDict claims))%string); [ eauto | ].
  rewrite Hv. cbn [bind]. eauto.
Qed.

Lemma validate_claims_not_yet_valid (now nbf : Z) (claims : list (string * json)) :
  dict_get "nbf" claims = Some (JNum nbf) -> now < nbf ->
  exists e, validate_claims now claims = Raise e.
Proof.
  intros Hnbf Hlt. unfold validate_claims.
  destruct (time_claim "iat" claims) as [? | e1]; cbn [bind]; [ | eauto ].
  assert (Hx : time_claim "nbf" claims = Return (Some nbf))
    by (unfold time_claim; rewrite Hnbf; reflexivity).
  rewrite Hx. cbn [bind].
  assert (Hb : (now <? nbf) = true) by (apply Z.ltb_lt; exact Hlt).
  rewrite Hb. cbn [bind]. eauto.
Qed.

(** A token whose claims do not validate is refused. *)
Lemma validate_token_invalid_claims (now : Z) (alg signature : string)
  (claims : list (string * json)) (e : exn) :
  validate_claims now claims = Raise e ->
  validate_token mac settings now (JWS alg (JDict claims) signature)
  = Raise invalid_credentials.
Proof.
  intros Hv.
  destruct (jwt_decode_invalid_claims now alg signature (jwt_secret settings)
              [jwt_algorithm settings] claims e Hv) as [e' He'].
  eapply validate_token_decode_raises. exact He'.
Qed.

(** X2: a token issued at [now] is accepted, and resolves to the user of the
    row, at every time from [now] to [now + jwt_expiration], both ends
    included, and is refused with the 406 refusal at every other time:
    before its issue as well as after its expiry. *)
Theorem issued_token_validity_window (now now' : Z) (user : tables.User) :
  validate_token mac settings now' (access_token (create_token mac settings now user))
  = if (now <=? now') && (now' <=? now + jwt_expiration settings)
    then Return (User_from_orm user)
    else Raise invalid_credentials.
Proof.
  destruct (Z.leb_spec now now') as [Hlo | Hlo];
    [ destruct (Z.leb_spec now' (now + jwt_expiration settings)) as [Hhi | Hhi] | ];
    cbn [andb].
  - apply validate_create_token. lia.
  - unfold create_token, jwt_encode. cbn [access_token].
    edestruct (validate_claims_expired now' (now + jwt_expiration settings)) as [e He];
      [ | exact Hhi | eapply validate_token_invalid_claims; exact He ].
    reflexivity.
  - unfold create_token, jwt_encode. cbn [access_token].
    edestruct (validate_claims_not_yet_valid now' now) as [e He];
      [ | exact Hlo | eapply validate_token_invalid_claims; exact He ].
    reflexivity.
Qed.




End TokenProperties.

Section GuardProperties.

Variable mac : string -> string -> json -> string.
Variable bcrypt_digest : string -> Z -> string -> string -> string.
Variable settings : Settings.

(** X4: for every user, whatever the role name, exactly one of the
    admin-only and non-admin-only guards passes; instructor-or-admin passes
    exactly when instructor-only or admin-only does; and no user passes both
    instructor-only and admin-only. *)
Theorem guards_relations (u : User) :
  returns (is_not_administrator u) = negb (returns (is_administrator u)) /\
  returns (is_instructor_or_higher u)
  = returns (is_instructor u) || returns (is_administrator u) /\
  returns (is_instructor u) && returns (is_administrator u) = false.
Proof.
  unfold is_administrator, is_not_administrator, is_instructor_or_higher, is_instructor.
  cbn [RoleName.name existsb].
  destruct (String.eqb_spec (role_name u) "administrator") as [Ha | Ha];
    destruct (String.eqb_spec (role_name u) "instructor") as [Hi | Hi];
    cbn [negb orb andb returns]; repeat split; try reflexivity.
  rewrite Ha in Hi. discriminate Hi.
Qed.

(** Each guard returns the user it was given or raises. *)
Lemma guard_returns_its_argument (g : User -> result User) (u v : User) :
  In g guards -> g u = Return v -> v = u.
Proof.
  intros Hg. unfold guards in Hg. cbn [In] in Hg.
  destruct Hg as [Hg | [Hg | [Hg | [Hg | []]]]]; subst g;
    unfold is_administrator, is_not_administrator, is_instructor_or_higher, is_instructor;
    match goal with |- (if ?b then _ else _) = _ -> _ => destruct b end;
    intros H; inversion H; reflexivity.
Qed.

(** X5: a guard run behind [get_current_user] returns a user only when the
    token validates to that very user and the guard allows that user. *)
Theorem guarded_route_needs_valid_token (g : User -> result User) (now : Z)
  (token : token_str) (u : User) :
  In g guards ->
  depends_get_current_user mac settings g now token = Return u ->
  validate_token mac settings now token = Return u /\ g u = Return u.
Proof.
  intros Hg. unfold depends_get_current_user, get_current_user.
  destruct (validate_token mac settings now token) as [v | e]; cbn [bind];
    [ | discriminate ].
  intros Hgv. pose proof (guard_returns_its_argument g v u Hg Hgv) as Heq.
  subst v. split; [ reflexivity | exact Hgv ].
Qed.


End GuardProperties.

Section TableProperties.

Variable mac : string -> string -> json -> string.
Variable bcrypt_digest : string -> Z -> string -> string -> string.
Variable settings : Settings.
Variable role_column : RoleName.t -> string.

(** The next key is above every key in the table. *)
Lemma next_id_above (session : Session) (u : tables.User) :
  In u session -> tables.id u < next_id session.
Proof.
  unfold next_id. induction session as [ | row rows IH]; intros Hin; [ destruct Hin | ].
  cbn [fold_right]. destruct Hin as [Heq | Hin].
  - subst row. lia.
  - specialize (IH Hin). lia.
Qed.



Lemma NoDup_app_one (l : list Z) (x : Z) : NoDup l -> ~ In x l -> NoDup (l ++ [x]).
Proof.
  induction 1 as [ | y l Hy Hl IH]; intros Hx; cbn [app].
  - constructor; [ intros [] | constructor ].
  - constructor.
    + intros Hin. apply in_app_or in Hin. destruct Hin as [Hin | [Heq | []]].
      * exact (Hy Hin).
      * apply Hx. left. symmetry. exact Heq.
    + apply IH. intros Hin. apply Hx. right. exact Hin.
Qed.

(** Registration keeps the keys of the table distinct. *)
Lemma register_keeps_ids_distinct (session : Session) (salt : string) (now : Z)
  (user_data : UserCreate.t) :
  NoDup (map tables.id session) ->
  NoDup (map tables.id
           (fst (register_new_user mac bcrypt_digest settings session salt now user_data))).
Proof.
  intros Hnodup. unfold register_new_user, add_commit. cbn [fst].
  rewrite map_app. cbn [map tables.id]. apply NoDup_app_one; [ exact Hnodup | ].
  intros Hin. apply in_map_iff in Hin. destruct Hin as [u [Hid Hu]].
  pose proof (next_id_above _ _ Hu). lia.
Qed.

(** In a table with distinct keys, lookup by the key of a row gives that row. *)
Lemma _get_row (session : Session) (u : tables.User) :
  NoDup (map tables.id session) -> In u session ->
  _get session (tables.id u) = Return u.
Proof.
  unfold _get. induction session as [ | row rows IH]; intros Hnodup Hin; [ destruct Hin | ].
  cbn [map] in Hnodup. inversion Hnodup as [ | x l Hfirst Hrest]; subst.
  cbn [filter].
  destruct (Z.eqb_spec (tables.id row) (tables.id u)) as [Heq | Hne].
  - cbn [first]. destruct Hin as [Hrow | Hin]; [ subst; reflexivity | ].
    exfalso. apply Hfirst. rewrite Heq. apply in_map. exact Hin.
  - destruct Hin as [Hrow | Hin]; [ subst; contradiction | ].
    apply IH; assumption.
Qed.

(** X8: in a table with distinct keys, every row that [get_list] lists, with
    or without a role, is the row [get] returns for its id, and has the
    role asked for when one was given. *)
Theorem get_list_agrees_with_get (session : Session) (role_name : option RoleName.t)
  (u : tables.User) :
  NoDup (map tables.id session) ->
  In u (get_list role_column session role_name) ->
  get session (tables.id u) = Return u /\
  match role_name with
  | Some r => tables.role_name u = role_column r
  | None => True
  end.
Proof.
  intros Hnodup Hin. unfold get, get_list in *.
  destruct role_name as [r | ].
  - apply filter_In in Hin. destruct Hin as [Hin Hrole].
    split; [ apply _get_row; assumption | apply String.eqb_eq; exact Hrole ].
  - split; [ apply _get_row; assumption | exact I ].
Qed.


End TableProperties.

(** ** Strings *)

Lemma length_append (a b : string) :
  String.length (a ++ b) = (String.length a + String.length b)%nat.
Proof. induction a as [ | c a IH]; cbn; [ reflexivity | rewrite IH; reflexivity ]. Qed.

Lemma substring_all (s : string) : substring 0 (String.length s) s = s.
Proof. induction s as [ | c s IH]; cbn; [ reflexivity | rewrite IH; reflexivity ]. Qed.

Lemma substring_skip (a b : string) (m : nat) :
  substring (String.length a) m (a ++ b) = substring 0 m b.
Proof. induction a as [ | c a IH]; cbn; [ reflexivity | exact IH ]. Qed.

Lemma substring_take (a b : string) (n : nat) :
  String.length a = n -> substring 0 n (a ++ b) = a.
Proof.
  intros <-. induction a as [ | c a IH]; cbn.
  - destruct b; reflexivity.
  - rewrite IH. reflexivity.
Qed.

Lemma substring_rest (a b : string) (n m : nat) :
  String.length a = n -> String.length b = m -> substring n m (a ++ b) = b.
Proof. intros <- <-. rewrite substring_skip. apply substring_all. Qed.

Lemma prefix_append (a b : string) : prefix a (a ++ b) = true.
Proof.
  induction a as [ | c a IH]; cbn.
  - destruct b; reflexivity.
  - destruct (ascii_dec c c) as [_ | Hne]; [ exact IH | contradiction ].
Qed.

Lemma drop_append (a b : string) : drop (String.length a) (a ++ b) = b.
Proof.
  unfold drop. rewrite length_append.
  replace (String.length a + String.length b - String.length a)%nat
    with (String.length b) by lia.
  rewrite substring_skip. apply substring_all.
Qed.

Lemma all_chars_append (p : ascii -> bool) (a b : string) :
  all_chars p (a ++ b) = all_chars p a && all_chars p b.
Proof.
  induction a as [ | c a IH]; cbn; [ reflexivity | ].
  rewrite IH. apply andb_assoc.
Qed.

(** A salt and a checksum of the right form make a hash string the handler
    reads back. *)
Lemma bcrypt_from_string_hash (salt checksum : string) :
  String.length salt = 22%nat -> all_chars is_hash64 salt = true ->
  String.length checksum = 31%nat -> all_chars is_hash64 checksum = true ->
  bcrypt_from_string ("$2b$12$" ++ salt ++ checksum) = Some ("$2b$", 12, salt, checksum).
Proof.
  intros Hsl Hsc Hcl Hcc.
  change ("$2b$12$" ++ salt ++ checksum)
    with ("$2b$" ++ String "1" (String "2" (String "$" (salt ++ checksum)))).
  unfold bcrypt_from_string, bcrypt_idents. cbn [split_ident].
  rewrite prefix_append, drop_append.
  replace (String.length (salt ++ checksum) =? 53)%nat with true
    by (rewrite length_append, Hsl, Hcl; reflexivity).
  rewrite all_chars_append, Hsc, Hcc.
  rewrite (substring_take _ _ _ Hsl), (substring_rest _ _ _ _ Hsl Hcl).
  reflexivity.
Qed.

Section PasswordProperties.

Variable mac : string -> string -> json -> string.
Variable bcrypt_digest : string -> Z -> string -> string -> string.
Variable settings : Settings.

Lemma verify_hash_password (salt password password' : string) :
  well_formed_parts bcrypt_digest salt password ->
  verify_password bcrypt_digest password' (hash_password bcrypt_digest salt password)
  = Return (bcrypt_digest "$2b$" 12 salt password'
            =? bcrypt_digest "$2b$" 12 salt password)%string.
Proof.
  intros [Hsl [Hsc [Hcl Hcc]]].
  unfold verify_password, bcrypt_verify, hash_password, bcrypt_hash.
  rewrite (bcrypt_from_string_hash _ _ Hsl Hsc Hcl Hcc). reflexivity.
Qed.

(** X10: a password verifies against its own hash, and another password
    verifies against that hash exactly when its digest under the same salt
    is the same. *)
Theorem hash_then_verify (salt password : string) :
  well_formed_parts bcrypt_digest salt password ->
  verify_password bcrypt_digest password (hash_password bcrypt_digest salt password)
  = Return true /\
  (forall password',
     verify_password bcrypt_digest password' (hash_password bcrypt_digest salt password)
     = Return true <->
     bcrypt_digest "$2b$" 12 salt password' = bcrypt_digest "$2b$" 12 salt password).
Proof.
  intros Hwf. split.
  - rewrite (verify_hash_password _ _ _ Hwf), String.eqb_refl. reflexivity.
  - intros password'. rewrite (verify_hash_password _ _ _ Hwf). split.
    + intros H. apply String.eqb_eq. injection H as Heq. exact Heq.
    + intros H. rewrite H, String.eqb_refl. reflexivity.
Qed.



(** X12: a sign-in returns a token only for a stored row with the username
    given whose hash the password verifies against; the token is the one
    issued for that row, and while it is valid [get_current_user] resolves
    it to the user of that row. *)
Theorem authenticate_user_sound (session : Session) (now : Z)
  (username password : string) (token : Token) :
  authenticate_user mac bcrypt_digest settings session now username password
  = Return token ->
  exists row : tables.User,
    In row session /\
    tables.username row = username /\
    verify_password bcrypt_digest password (tables.password_hash row) = Return true /\
    token = create_token mac settings now row /\
    (forall now', now <= now' <= now + jwt_expiration settings ->
       get_current_user mac settings now' (access_token token)
       = Return (User_from_orm row)).
Proof.
  unfold authenticate_user. cbn [bool_of_class negb].
  destruct (filter (fun u => (tables.username u =? username)%string) session)
    as [ | row rest] eqn:Hfilter; cbn [first]; [ discriminate | ].
  assert (Hin : In row (filter (fun u => (tables.username u =? username)%string) session))
    by (rewrite Hfilter; left; reflexivity).
  apply filter_In in Hin. destruct Hin as [Hin Hname].
  destruct (verify_password bcrypt_digest password (tables.password_hash row))
    as [[ | ] | e] eqn:Hverify; cbn [bind negb]; try discriminate.
  intros H. injection H as Htoken. subst token.
  exists row.
  split; [ exact Hin | ].
  split; [ apply String.eqb_eq; exact Hname | ].
  split; [ exact Hverify | ].
  split; [ reflexivity | ].
  intros now' Hwithin. unfold get_current_user. apply validate_create_token. exact Hwithin.
Qed.

End PasswordProperties.

(** * The further properties on concrete inputs *)


Lemma guarded_route_needs_valid_token_witness :
  In is_not_administrator guards /\
  depends_get_current_user ref_mac ref_settings is_not_administrator 2000
    (access_token (create_token ref_mac ref_settings 1000 alice_row))
  = Return alice /\
  validate_token ref_mac ref_settings 2000
    (access_token (create_token ref_mac ref_settings 1000 alice_row))
  = Return alice /\
  is_not_administrator alice = Return alice.
Proof.
  assert (H0 : In is_not_administrator guards) by (right; left; reflexivity).
  assert (H1 : depends_get_current_user ref_mac ref_settings is_not_administrator 2000
                 (access_token (create_token ref_mac ref_settings 1000 alice_row))
               = Return alice) by (vm_compute; reflexivity).
  split; [ exact H0 | split; [ exact H1 | ] ].
  exact (guarded_route_needs_valid_token ref_mac ref_settings is_not_administrator 2000
           _ alice H0 H1).
Defined.


Lemma get_list_agrees_with_get_witness :
  NoDup (map tables.id [alice_row; carol_row]) /\
  In carol_row (get_list RoleName.name [alice_row; carol_row] (Some RoleName.administrator)) /\
  get [alice_row; carol_row] (tables.id carol_row) = Return carol_row /\
  tables.role_name carol_row = RoleName.name RoleName.administrator.
Proof.
  assert (H0 : NoDup (map tables.id [alice_row; carol_row])).
  { cbn. repeat constructor; cbn; intros H; repeat destruct H as [H | H]; try lia; exact H. }
  assert (H1 : In carol_row
                 (get_list RoleName.name [alice_row; carol_row] (Some RoleName.administrator)))
    by (left; reflexivity).
  split; [ exact H0 | split; [ exact H1 | ] ].
  exact (get_list_agrees_with_get RoleName.name [alice_row; carol_row]
           (Some RoleName.administrator) carol_row H0 H1).
Defined.

Lemma hash_then_verify_witness :
  well_formed_parts ref_digest good_salt "pw123" /\
  verify_password ref_digest "pw123" (hash_password ref_digest good_salt "pw123")
  = Return true.
Proof.
  assert (H0 : well_formed_parts ref_digest good_salt "pw123")
    by (vm_compute; repeat split).
  split; [ exact H0 | ].
  exact (proj1 (hash_then_verify ref_digest good_salt "pw123" H0)).
Defined.


Lemma authenticate_user_sound_witness :
  authenticate_user ref_mac ref_digest ref_settings [alice_row; carol_row] 1500
    "alice" "pw123"
  = Return (create_token ref_mac ref_settings 1500 alice_row) /\
  exists row : tables.User,
    In row [alice_row; carol_row] /\
    tables.username row = "alice" /\
    verify_password ref_digest "pw123" (tables.password_hash row) = Return true /\
    create_token ref_mac ref_settings 1500 alice_row
    = create_token ref_mac ref_settings 1500 row /\
    (forall now', 1500 <= now' <= 1500 + jwt_expiration ref_settings ->
       get_current_user ref_mac ref_settings now'
         (access_token (create_token ref_mac ref_settings 1500 alice_row))
       = Return (User_from_orm row)).
Proof.
  assert (H0 : authenticate_user ref_mac ref_digest ref_settings [alice_row; carol_row]
                 1500 "alice" "pw123"
               = Return (create_token ref_mac ref_settings 1500 alice_row))
    by (vm_compute; reflexivity).
  split; [ exact H0 | ].
  exact (authenticate_user_sound ref_mac ref_digest ref_settings [alice_row; carol_row]
           1500 "alice" "pw123" _ H0).
Defined.
